(** * bis: saving, changing and restoring the terminal mode

    A shallow embedding of [src/bis_c.c]: the two entry points
    [bis_prepare_terminal] and [bis_restore_terminal], the three file-level
    variables they share, and a simulated kernel standing for the two
    [<termios.h>] calls the program makes. *)

From Stdlib Require Import ZArith String List Bool Lia.
Import ListNotations.
Open Scope Z_scope.

(** ** Terminal attributes *)

(** Modelled from the spec: [struct termios] is declared by the system header
    [<termios.h>], which is not part of the repository.  The spec describes it
    as "line-discipline flags, control characters, speeds"; the members below
    are those of glibc on Linux.  The program reads and writes [c_lflag] only
    and copies the structure as a whole. *)
Record termios : Type := mk_termios {
  c_iflag  : Z;
  c_oflag  : Z;
  c_cflag  : Z;
  c_lflag  : Z;
  c_line   : Z;
  c_cc     : list Z;
  c_ispeed : Z;
  c_ospeed : Z
}.

(** Assignment to the member [c_lflag], every other member kept. *)
Definition with_c_lflag (v : Z) (t : termios) : termios :=
  {| c_iflag := c_iflag t; c_oflag := c_oflag t; c_cflag := c_cflag t;
     c_lflag := v;
     c_line := c_line t; c_cc := c_cc t;
     c_ispeed := c_ispeed t; c_ospeed := c_ospeed t |}.

(** Number of control characters on Linux. *)
Definition NCCS : nat := 32.

(** A zero-filled structure: the initial contents of an object with static
    storage duration and no initialiser. *)
Definition termios_zero : termios :=
  mk_termios 0 0 0 0 0 (repeat 0 NCCS) 0 0.

(** [<unistd.h>]: the descriptor of the standard output. *)
Definition STDOUT_FILENO : Z := 1.

(** The values of the header macros on Linux, used for the concrete runs. *)
Definition linux_ICANON : Z := 2.
Definition linux_tcflag_bits : Z := 32.

(** ** The simulated kernel *)

Module OS.

(** The [optional_actions] argument of [tcsetattr]. *)
Inductive optional_actions : Type := TCSANOW | TCSADRAIN | TCSAFLUSH.

(** One entry of the call log: the call, its arguments and what it
    returned. *)
Inductive call : Type :=
| Tcgetattr (fd : Z) (rc : Z)
| Tcsetattr (fd : Z) (act : optional_actions) (t : termios) (rc : Z).

(** Modelled from the spec: [tcgetattr] and [tcsetattr] belong to the C
    library and the kernel.  The spec calls them "get current attributes of a
    given terminal device" and "set attributes of a given terminal device",
    either of which may fail.  The kernel holds the attributes of the
    terminal behind the standard output, a schedule saying which of the
    coming calls fail ([true] is a failure, a call past the end of the
    schedule succeeds) and a log of the calls made so far. *)
Record state : Type := mk_state {
  term_attrs : termios;
  faults     : list bool;
  calls      : list call
}.

(** Does the [n]-th call from now fail? *)
Definition fault_at (n : nat) (k : state) : bool := nth n (faults k) false.

(** Account for one call: its outcome is taken off the schedule and the
    call is logged. *)
Definition account (c : call) (k : state) : state :=
  {| term_attrs := term_attrs k;
     faults := tl (faults k);
     calls := calls k ++ [c] |}.

Definition with_term_attrs (t : termios) (k : state) : state :=
  {| term_attrs := t; faults := faults k; calls := calls k |}.

(** [Some t]: the call returns 0 and has filled the caller's buffer with
    [t].  [None]: the call returns -1 and the buffer is as it was. *)
Definition tcgetattr (fd : Z) (k : state) : option termios * state :=
  if fault_at 0 k
  then (None, account (Tcgetattr fd (-1)) k)
  else (Some (term_attrs k), account (Tcgetattr fd 0) k).

(** Returns 0 with the attributes replaced by [t], or -1 with the
    attributes as they were. *)
Definition tcsetattr (fd : Z) (act : optional_actions) (t : termios)
    (k : state) : Z * state :=
  if fault_at 0 k
  then (-1, account (Tcsetattr fd act t (-1)) k)
  else (0, with_term_attrs t (account (Tcsetattr fd act t 0) k)).

(** A kernel with the given attributes and schedule, before any call. *)
Definition boot (t : termios) (fs : list bool) : state :=
  {| term_attrs := t; faults := fs; calls := [] |}.

End OS.

(** ** Program state *)

(** [struct bis_error_info_t]: [error_str] points to a string literal or is
    the null pointer ([None]). *)
Record bis_error_info_t : Type := mk_error_info {
  error_str : option string;
  is_errno  : Z
}.

(** The three file-level variables, and the kernel the process runs on. *)
Record world : Type := mk_world {
  bis_term_info_set : Z;
  bis_term_info     : termios;
  bis_error_info    : bis_error_info_t;
  kernel            : OS.state
}.

(** The attributes of the terminal itself. *)
Definition tty (w : world) : termios := OS.term_attrs (kernel w).

(** The state at program start, from the initialisers of the three
    variables. *)
Definition initial_world (k : OS.state) : world :=
  {| bis_term_info_set := 0;
     bis_term_info := termios_zero;
     bis_error_info := {| error_str := None; is_errno := 0 |};
     kernel := k |}.

(** ** A state monad over [world] *)

Definition M (A : Type) : Type := world -> A * world.

Definition ret {A : Type} (a : A) : M A := fun w => (a, w).

Definition bind {A B : Type} (m : M A) (f : A -> M B) : M B :=
  fun w => let (a, w') := m w in f a w'.

Declare Scope bis_scope.
Delimit Scope bis_scope with bis.
Notation "x <- m ;; f" := (bind m (fun x => f))
  (at level 61, m at next level, right associativity) : bis_scope.
Notation "m ;; f" := (bind m (fun _ => f))
  (at level 61, right associativity) : bis_scope.
Open Scope bis_scope.

Definition load_bis_term_info_set : M Z :=
  fun w => (bis_term_info_set w, w).

Definition load_bis_term_info : M termios :=
  fun w => (bis_term_info w, w).

Definition store_bis_term_info_set (v : Z) : M unit :=
  fun w => (tt, {| bis_term_info_set := v;
                   bis_term_info := bis_term_info w;
                   bis_error_info := bis_error_info w;
                   kernel := kernel w |}).

Definition store_bis_term_info (t : termios) : M unit :=
  fun w => (tt, {| bis_term_info_set := bis_term_info_set w;
                   bis_term_info := t;
                   bis_error_info := bis_error_info w;
                   kernel := kernel w |}).

Definition store_error_str (s : string) : M unit :=
  fun w => (tt, {| bis_term_info_set := bis_term_info_set w;
                   bis_term_info := bis_term_info w;
                   bis_error_info :=
                     {| error_str := Some s;
                        is_errno := is_errno (bis_error_info w) |};
                   kernel := kernel w |}).

Definition store_is_errno (v : Z) : M unit :=
  fun w => (tt, {| bis_term_info_set := bis_term_info_set w;
                   bis_term_info := bis_term_info w;
                   bis_error_info :=
                     {| error_str := error_str (bis_error_info w);
                        is_errno := v |};
                   kernel := kernel w |}).

Definition with_kernel (k : OS.state) (w : world) : world :=
  {| bis_term_info_set := bis_term_info_set w;
     bis_term_info := bis_term_info w;
     bis_error_info := bis_error_info w;
     kernel := k |}.

Definition tcgetattr (fd : Z) : M (option termios) :=
  fun w => let (r, k) := OS.tcgetattr fd (kernel w) in (r, with_kernel k w).

Definition tcsetattr (fd : Z) (act : OS.optional_actions) (t : termios)
    : M Z :=
  fun w => let (r, k) := OS.tcsetattr fd act t (kernel w) in
           (r, with_kernel k w).

(** ** Sample states for the concrete runs *)

(** A terminal in canonical mode: on Linux bit 1 of [c_lflag] is [ICANON]. *)
Definition tty_cooked : termios :=
  mk_termios 17664 5 191 35387 0 (repeat 0 NCCS) 15 15.

(** A process that has just started on that terminal, under a given
    schedule of failures. *)
Definition fresh (fs : list bool) : world :=
  initial_world (OS.boot tty_cooked fs).

(** ** The two entry points *)

Section Program.

(** The macro [ICANON] and the width of the unsigned type [tcflag_t] come
    from [<termios.h>]. *)
Variable ICANON : Z.
Variable tcflag_bits : Z.

(** [c_lflag &= ~ICANON]: the complement is converted to [tcflag_t]. *)
Definition clear_icanon (t : termios) : termios :=
  with_c_lflag (Z.land (c_lflag t) (Z.lnot ICANON mod 2 ^ tcflag_bits)) t.

Definition bis_prepare_terminal : M Z :=
  got <- tcgetattr STDOUT_FILENO ;;
  match got with
  | None =>
      store_error_str "Error getting terminal attributes" ;;
      store_is_errno 1 ;;
      ret (-1)
  | Some terminfo_p =>
      store_bis_term_info terminfo_p ;;
      store_bis_term_info_set 1 ;;
      let terminfo_p := clear_icanon terminfo_p in
      rc <- tcsetattr STDOUT_FILENO OS.TCSAFLUSH terminfo_p ;;
      if negb (rc =? 0) then
        store_error_str "Error setting terminal attributes" ;;
        store_is_errno 1 ;;
        ret (-1)
      else
        ret 0
  end.

Definition bis_restore_terminal : M Z :=
  flag <- load_bis_term_info_set ;;
  if negb (flag =? 1) then
    store_error_str
      "bis_restore_terminal called before bis_prepare_terminal" ;;
    store_is_errno 0 ;;
    ret (-1)
  else
    saved <- load_bis_term_info ;;
    rc <- tcsetattr STDOUT_FILENO OS.TCSAFLUSH saved ;;
    if negb (rc =? 0) then
      store_error_str "Error restoring terminal attributes" ;;
      store_is_errno 1 ;;
      ret (-1)
    else
      ret 0.

(** A caller: any finite sequence of calls of the two entry points. *)
Inductive op : Type := CallPrepare | CallRestore.

Definition call (o : op) : M Z :=
  match o with
  | CallPrepare => bis_prepare_terminal
  | CallRestore => bis_restore_terminal
  end.

Fixpoint run (ops : list op) (w : world) : world :=
  match ops with
  | [] => w
  | o :: rest => run rest (snd (call o w))
  end.

(** The kernel once the query of [bis_prepare_terminal] has succeeded. *)
Definition queried (k : OS.state) : OS.state :=
  OS.account (OS.Tcgetattr STDOUT_FILENO 0) k.

(** The return codes of a sequence of calls, in call order. *)
Fixpoint results (ops : list op) (w : world) : list Z :=
  match ops with
  | [] => []
  | o :: rest => fst (call o w) :: results rest (snd (call o w))
  end.

(** [n] times over: a call of [bis_prepare_terminal], then a call of
    [bis_restore_terminal]. *)
Fixpoint round_trips (n : nat) : list op :=
  match n with
  | O => []
  | S m => CallPrepare :: CallRestore :: round_trips m
  end.

(** No call left on the schedule fails. *)
Definition quiet (k : OS.state) : bool := forallb negb (OS.faults k).

(** A logged call on the standard output which, when it sets attributes,
    does so with [TCSAFLUSH]. *)
Definition on_stdout_flushing (c : OS.call) : bool :=
  match c with
  | OS.Tcgetattr fd _ => fd =? STDOUT_FILENO
  | OS.Tcsetattr fd OS.TCSAFLUSH _ _ => fd =? STDOUT_FILENO
  | OS.Tcsetattr _ _ _ _ => false
  end.

(** The error records the source can leave: the initialiser and the four
    assignments. *)
Definition known_errors : list bis_error_info_t :=
  [ {| error_str := None; is_errno := 0 |};
    {| error_str := Some "Error getting terminal attributes"%string;
       is_errno := 1 |};
    {| error_str := Some "Error setting terminal attributes"%string;
       is_errno := 1 |};
    {| error_str :=
         Some "bis_restore_terminal called before bis_prepare_terminal"%string;
       is_errno := 0 |};
    {| error_str := Some "Error restoring terminal attributes"%string;
       is_errno := 1 |} ].

(** What the three variables satisfy in every state the program reaches. *)
Definition consistent (w : world) : Prop :=
  (bis_term_info_set w = 0 \/ bis_term_info_set w = 1) /\
  (bis_term_info_set w = 0 -> bis_term_info w = termios_zero) /\
  In (bis_error_info w) known_errors.

(** ** How the kernel calls behave *)

Lemma fault_at_account (n : nat) (c : OS.call) (k : OS.state) :
  OS.fault_at n (OS.account c k) = OS.fault_at (S n) k.
Proof.
  unfold OS.fault_at, OS.account; simpl.
  destruct (OS.faults k) as [|b fs]; simpl; [now destruct n | reflexivity].
Qed.

Lemma tcgetattr_fails (fd : Z) (w : world) :
  OS.fault_at 0 (kernel w) = true ->
  tcgetattr fd w =
    (None, with_kernel (OS.account (OS.Tcgetattr fd (-1)) (kernel w)) w).
Proof. intros F. unfold tcgetattr, OS.tcgetattr. now rewrite F. Qed.

Lemma tcgetattr_succeeds (fd : Z) (w : world) :
  OS.fault_at 0 (kernel w) = false ->
  tcgetattr fd w =
    (Some (tty w),
     with_kernel (OS.account (OS.Tcgetattr fd 0) (kernel w)) w).
Proof. intros F. unfold tcgetattr, OS.tcgetattr. now rewrite F. Qed.

Lemma tcsetattr_fails fd act (t : termios) (w : world) :
  OS.fault_at 0 (kernel w) = true ->
  tcsetattr fd act t w =
    (-1, with_kernel (OS.account (OS.Tcsetattr fd act t (-1)) (kernel w)) w).
Proof. intros F. unfold tcsetattr, OS.tcsetattr. now rewrite F. Qed.

Lemma tcsetattr_succeeds fd act (t : termios) (w : world) :
  OS.fault_at 0 (kernel w) = false ->
  tcsetattr fd act t w =
    (0, with_kernel
          (OS.with_term_attrs t
             (OS.account (OS.Tcsetattr fd act t 0) (kernel w))) w).
Proof. intros F. unfold tcsetattr, OS.tcsetattr. now rewrite F. Qed.

(** ** The paths through [bis_prepare_terminal] *)

(** The query fails: only the error record and the kernel's bookkeeping
    change. *)
Lemma prepare_query_fails (w : world) :
  OS.fault_at 0 (kernel w) = true ->
  bis_prepare_terminal w =
    (-1, {| bis_term_info_set := bis_term_info_set w;
            bis_term_info := bis_term_info w;
            bis_error_info :=
              {| error_str := Some "Error getting terminal attributes"%string;
                 is_errno := 1 |};
            kernel := OS.account (OS.Tcgetattr STDOUT_FILENO (-1))
                        (kernel w) |}).
Proof.
  intros F. unfold bis_prepare_terminal, bind.
  rewrite (tcgetattr_fails _ _ F). reflexivity.
Qed.

(** The query succeeds and the apply fails. *)
Lemma prepare_apply_fails (w : world) :
  OS.fault_at 0 (kernel w) = false ->
  OS.fault_at 1 (kernel w) = true ->
  bis_prepare_terminal w =
    (-1, {| bis_term_info_set := 1;
            bis_term_info := tty w;
            bis_error_info :=
              {| error_str := Some "Error setting terminal attributes"%string;
                 is_errno := 1 |};
            kernel :=
              OS.account
                (OS.Tcsetattr STDOUT_FILENO OS.TCSAFLUSH
                   (clear_icanon (tty w)) (-1))
                (queried (kernel w)) |}).
Proof.
  intros F0 F1. unfold bis_prepare_terminal, bind.
  rewrite (tcgetattr_succeeds _ _ F0). cbn [store_bis_term_info
    store_bis_term_info_set].
  rewrite tcsetattr_fails
    by (cbn [kernel with_kernel]; now rewrite fault_at_account).
  reflexivity.
Qed.

(** Both calls succeed. *)
Lemma prepare_succeeds (w : world) :
  OS.fault_at 0 (kernel w) = false ->
  OS.fault_at 1 (kernel w) = false ->
  bis_prepare_terminal w =
    (0, {| bis_term_info_set := 1;
           bis_term_info := tty w;
           bis_error_info := bis_error_info w;
           kernel :=
             OS.with_term_attrs (clear_icanon (tty w))
               (OS.account
                  (OS.Tcsetattr STDOUT_FILENO OS.TCSAFLUSH
                     (clear_icanon (tty w)) 0)
                  (queried (kernel w))) |}).
Proof.
  intros F0 F1. unfold bis_prepare_terminal, bind.
  rewrite (tcgetattr_succeeds _ _ F0). cbn [store_bis_term_info
    store_bis_term_info_set].
  rewrite tcsetattr_succeeds
    by (cbn [kernel with_kernel]; now rewrite fault_at_account).
  reflexivity.
Qed.

(** ** The paths through [bis_restore_terminal] *)

Lemma restore_unprepared (w : world) :
  bis_term_info_set w <> 1 ->
  bis_restore_terminal w =
    (-1, {| bis_term_info_set := bis_term_info_set w;
            bis_term_info := bis_term_info w;
            bis_error_info :=
              {| error_str :=
                   Some "bis_restore_terminal called before bis_prepare_terminal"%string;
                 is_errno := 0 |};
            kernel := kernel w |}).
Proof.
  intros U. unfold bis_restore_terminal, bind, load_bis_term_info_set.
  apply Z.eqb_neq in U. rewrite U. reflexivity.
Qed.

Lemma restore_apply_fails (w : world) :
  bis_term_info_set w = 1 ->
  OS.fault_at 0 (kernel w) = true ->
  bis_restore_terminal w =
    (-1, {| bis_term_info_set := 1;
            bis_term_info := bis_term_info w;
            bis_error_info :=
              {| error_str :=
                   Some "Error restoring terminal attributes"%string;
                 is_errno := 1 |};
            kernel :=
              OS.account
                (OS.Tcsetattr STDOUT_FILENO OS.TCSAFLUSH
                   (bis_term_info w) (-1))
                (kernel w) |}).
Proof.
  intros P F. unfold bis_restore_terminal, bind, load_bis_term_info_set,
    load_bis_term_info.
  rewrite P; cbn [Z.eqb Pos.eqb negb].
  rewrite (tcsetattr_fails _ _ _ _ F). cbn. now rewrite P.
Qed.

Lemma restore_succeeds (w : world) :
  bis_term_info_set w = 1 ->
  OS.fault_at 0 (kernel w) = false ->
  bis_restore_terminal w =
    (0, {| bis_term_info_set := 1;
           bis_term_info := bis_term_info w;
           bis_error_info := bis_error_info w;
           kernel :=
             OS.with_term_attrs (bis_term_info w)
               (OS.account
                  (OS.Tcsetattr STDOUT_FILENO OS.TCSAFLUSH
                     (bis_term_info w) 0)
                  (kernel w)) |}).
Proof.
  intros P F. unfold bis_restore_terminal, bind, load_bis_term_info_set,
    load_bis_term_info.
  rewrite P; cbn [Z.eqb Pos.eqb negb].
  rewrite (tcsetattr_succeeds _ _ _ _ F). cbn.
  unfold ret, with_kernel. now rewrite P.
Qed.

(** Case analysis along the paths of the two functions: every occurrence of
    the call on [w] is replaced by its result on the path at hand. *)
Ltac prepare_paths w :=
  let F0 := fresh "F0" in
  let F1 := fresh "F1" in
  destruct (OS.fault_at 0 (kernel w)) eqn:F0;
  [ rewrite (prepare_query_fails w F0) in *
  | destruct (OS.fault_at 1 (kernel w)) eqn:F1;
    [ rewrite (prepare_apply_fails w F0 F1) in *
    | rewrite (prepare_succeeds w F0 F1) in * ] ].

Ltac restore_paths w :=
  let P := fresh "P" in
  let F := fresh "F" in
  destruct (Z.eq_dec (bis_term_info_set w) 1) as [P | P];
  [ destruct (OS.fault_at 0 (kernel w)) eqn:F;
    [ rewrite (restore_apply_fails w P F) in *
    | rewrite (restore_succeeds w P F) in * ]
  | rewrite (restore_unprepared w P) in * ].

Ltac pair_eq H := injection H as <- <-.

(** ** Clearing the canonical-mode bit *)

Lemma mask_bit_low (i : Z) :
  0 <= i < tcflag_bits ->
  Z.testbit (Z.lnot ICANON mod 2 ^ tcflag_bits) i = negb (Z.testbit ICANON i).
Proof.
  intros Hi. rewrite Z.mod_pow2_bits_low by lia. apply Z.lnot_spec; lia.
Qed.

Lemma mask_bit_high (i : Z) :
  0 <= tcflag_bits <= i ->
  Z.testbit (Z.lnot ICANON mod 2 ^ tcflag_bits) i = false.
Proof. intros Hi. now apply Z.mod_pow2_bits_high. Qed.

Lemma clear_icanon_clears (t : termios) :
  Z.land (c_lflag (clear_icanon t)) ICANON = 0.
Proof.
  unfold clear_icanon; cbn [c_lflag with_c_lflag].
  apply Z.bits_inj'; intros i Hi.
  rewrite !Z.land_spec, Z.bits_0.
  destruct (Z_lt_le_dec i tcflag_bits) as [Lo | Hi'].
  - rewrite mask_bit_low by lia.
    destruct (Z.testbit ICANON i); cbn; now rewrite ?andb_false_r.
  - destruct (Z_lt_le_dec tcflag_bits 0) as [Neg | Pos].
    + rewrite (Z.pow_neg_r 2 tcflag_bits Neg), Z.mod_0_r, Z.lnot_spec by lia.
      destruct (Z.testbit ICANON i); cbn; now rewrite ?andb_false_r.
    + rewrite mask_bit_high by lia. cbn. now rewrite andb_false_r.
Qed.

Lemma clear_icanon_other_bits (t : termios) (i : Z) :
  0 <= c_lflag t < 2 ^ tcflag_bits ->
  Z.testbit ICANON i = false ->
  Z.testbit (c_lflag (clear_icanon t)) i = Z.testbit (c_lflag t) i.
Proof.
  intros R Off. unfold clear_icanon; cbn [c_lflag with_c_lflag].
  destruct (Z_lt_le_dec i 0) as [Neg | Pos].
  { now rewrite !Z.testbit_neg_r. }
  assert (W : 0 <= tcflag_bits).
  { destruct (Z_lt_le_dec tcflag_bits 0) as [N | ?]; [| assumption].
    rewrite (Z.pow_neg_r 2 tcflag_bits N) in R. lia. }
  rewrite Z.land_spec.
  destruct (Z_lt_le_dec i tcflag_bits) as [Lo | Hi].
  - rewrite mask_bit_low, Off by lia. apply andb_true_r.
  - rewrite mask_bit_high, andb_false_r by lia.
    rewrite <- (Z.mod_small (c_lflag t) (2 ^ tcflag_bits)) by lia.
    symmetry. now apply Z.mod_pow2_bits_high.
Qed.

Lemma clear_icanon_other_fields (t : termios) :
  c_iflag (clear_icanon t) = c_iflag t /\
  c_oflag (clear_icanon t) = c_oflag t /\
  c_cflag (clear_icanon t) = c_cflag t /\
  c_line (clear_icanon t) = c_line t /\
  c_cc (clear_icanon t) = c_cc t /\
  c_ispeed (clear_icanon t) = c_ispeed t /\
  c_ospeed (clear_icanon t) = c_ospeed t.
Proof. repeat split. Qed.

(** ** The saved snapshot and the flag *)

(** A call of [bis_restore_terminal] never writes the flag or the snapshot. *)
Lemma restore_keeps_snapshot (w : world) :
  bis_term_info_set (snd (bis_restore_terminal w)) = bis_term_info_set w /\
  bis_term_info (snd (bis_restore_terminal w)) = bis_term_info w.
Proof. restore_paths w; cbn; auto. Qed.

(** A call of either function leaves a set flag set. *)
Lemma call_keeps_flag (o : op) (w : world) :
  bis_term_info_set w = 1 -> bis_term_info_set (snd (call o w)) = 1.
Proof.
  intros P. destruct o; cbn [call].
  - prepare_paths w; cbn; auto.
  - now rewrite (proj1 (restore_keeps_snapshot w)).
Qed.

(** A call of [bis_prepare_terminal] whose query succeeds takes two
    outcomes off the schedule: its own query's and its own apply's. *)
Lemma prepare_uses_two_outcomes (n : nat) (w : world) :
  OS.fault_at 0 (kernel w) = false ->
  OS.fault_at n (kernel (snd (bis_prepare_terminal w))) =
    OS.fault_at (S (S n)) (kernel w).
Proof.
  intros Q. prepare_paths w; try discriminate Q; cbn [snd kernel].
  - unfold queried. now rewrite !fault_at_account.
  - change (OS.fault_at n (OS.with_term_attrs ?t ?k))
      with (OS.fault_at n k).
    unfold queried. now rewrite !fault_at_account.
Qed.

(** * The claims *)

(** C1: round trip.  When [bis_prepare_terminal] returns 0 and the call of
    [bis_restore_terminal] that follows it returns 0, the attributes of the
    terminal are again what they were before [bis_prepare_terminal] was
    called. *)
Theorem prepare_restore_round_trip (w w1 w2 : world) (r1 r2 : Z) :
  bis_prepare_terminal w = (r1, w1) ->
  bis_restore_terminal w1 = (r2, w2) ->
  r1 = 0 -> r2 = 0 ->
  tty w2 = tty w.
Proof.
  intros Hp Hr R1 R2.
  prepare_paths w; pair_eq Hp; try discriminate R1.
  match type of Hr with bis_restore_terminal ?x = _ => restore_paths x end;
    pair_eq Hr; try discriminate R2.
  reflexivity.
Qed.

(** C2: after a call of [bis_prepare_terminal] that returns 0 the terminal
    has [ICANON] clear in [c_lflag]; every other bit of [c_lflag] and every
    other member is as before the call.  The flags word is a [tcflag_t]. *)
Theorem prepare_clears_only_icanon (w w' : world) (r : Z) :
  bis_prepare_terminal w = (r, w') ->
  r = 0 ->
  0 <= c_lflag (tty w) < 2 ^ tcflag_bits ->
  Z.land (c_lflag (tty w')) ICANON = 0 /\
  (forall i, Z.testbit ICANON i = false ->
     Z.testbit (c_lflag (tty w')) i = Z.testbit (c_lflag (tty w)) i) /\
  c_iflag (tty w') = c_iflag (tty w) /\
  c_oflag (tty w') = c_oflag (tty w) /\
  c_cflag (tty w') = c_cflag (tty w) /\
  c_line (tty w') = c_line (tty w) /\
  c_cc (tty w') = c_cc (tty w) /\
  c_ispeed (tty w') = c_ispeed (tty w) /\
  c_ospeed (tty w') = c_ospeed (tty w).
Proof.
  intros Hp R Rng.
  prepare_paths w; pair_eq Hp; try discriminate R.
  unfold tty in *; cbn [kernel OS.term_attrs OS.with_term_attrs].
  split; [apply clear_icanon_clears |].
  split; [intros i Off; now apply clear_icanon_other_bits |].
  apply clear_icanon_other_fields.
Qed.

(** C3: [bis_restore_terminal] called while the flag is not set returns -1,
    records the "called before" error with [is_errno] 0, and leaves the
    kernel alone: no call is logged and the terminal's attributes are as
    before. *)
Theorem restore_before_prepare_fails (w w' : world) (r : Z) :
  bis_term_info_set w <> 1 ->
  bis_restore_terminal w = (r, w') ->
  r = -1 /\
  is_errno (bis_error_info w') = 0 /\
  error_str (bis_error_info w') =
    Some "bis_restore_terminal called before bis_prepare_terminal"%string /\
  OS.calls (kernel w') = OS.calls (kernel w) /\
  tty w' = tty w /\
  kernel w' = kernel w.
Proof.
  intros U Hr. rewrite (restore_unprepared w U) in Hr. pair_eq Hr.
  repeat split.
Qed.

(** C4: when the query of [bis_prepare_terminal] succeeds and its apply
    fails, the call returns -1 with the snapshot stored and the flag set; if
    the apply of the following [bis_restore_terminal] succeeds, that call
    returns 0, hands the attributes the terminal had before
    [bis_prepare_terminal] to the kernel and leaves the terminal with them. *)
Theorem restore_after_failed_apply (w w1 w2 : world) (r1 r2 : Z) :
  OS.fault_at 0 (kernel w) = false ->
  OS.fault_at 1 (kernel w) = true ->
  OS.fault_at 2 (kernel w) = false ->
  bis_prepare_terminal w = (r1, w1) ->
  bis_restore_terminal w1 = (r2, w2) ->
  r1 = -1 /\
  bis_term_info w1 = tty w /\
  bis_term_info_set w1 = 1 /\
  r2 = 0 /\
  OS.calls (kernel w2) =
    OS.calls (kernel w1)
      ++ [OS.Tcsetattr STDOUT_FILENO OS.TCSAFLUSH (tty w) 0] /\
  tty w2 = tty w.
Proof.
  intros F0 F1 F2 Hp Hr.
  rewrite (prepare_apply_fails w F0 F1) in Hp. pair_eq Hp.
  rewrite restore_succeeds in Hr;
    [| reflexivity
     | cbn [kernel]; unfold queried; now rewrite !fault_at_account ].
  pair_eq Hr. repeat split.
Qed.

(** C5: when the query fails, [bis_prepare_terminal] returns -1, the error
    record holds "Error getting terminal attributes" with [is_errno] 1, and
    the flag has the value it had before the call. *)
Theorem prepare_query_failure (w w' : world) (r : Z) :
  OS.fault_at 0 (kernel w) = true ->
  bis_prepare_terminal w = (r, w') ->
  r = -1 /\
  bis_error_info w' =
    {| error_str := Some "Error getting terminal attributes"%string;
       is_errno := 1 |} /\
  bis_term_info_set w' = bis_term_info_set w.
Proof.
  intros F Hp. rewrite (prepare_query_fails w F) in Hp. pair_eq Hp.
  repeat split.
Qed.

(** C6, as amended: two calls of [bis_prepare_terminal] whose queries
    succeed, then a call of [bis_restore_terminal] whose apply succeeds.  The
    restore returns 0, and the snapshot and the terminal hold the attributes
    the second call found: the second snapshot has replaced the first.  When
    the apply of the first call succeeded on a terminal in canonical mode,
    these are not the attributes the terminal had before the first call. *)
Theorem second_prepare_overwrites_snapshot
    (w w1 w2 w3 : world) (r1 r2 r3 : Z) :
  OS.fault_at 0 (kernel w) = false ->
  OS.fault_at 2 (kernel w) = false ->
  OS.fault_at 4 (kernel w) = false ->
  bis_prepare_terminal w = (r1, w1) ->
  bis_prepare_terminal w1 = (r2, w2) ->
  bis_restore_terminal w2 = (r3, w3) ->
  r3 = 0 /\
  bis_term_info w2 = tty w1 /\
  tty w3 = tty w1 /\
  (OS.fault_at 1 (kernel w) = false ->
   Z.land (c_lflag (tty w)) ICANON <> 0 ->
   r1 = 0 /\ tty w3 <> tty w).
Proof.
  intros Q1 Q2 A3 Hp1 Hp2 Hr.
  assert (E1 : w1 = snd (bis_prepare_terminal w)) by now rewrite Hp1.
  assert (E2 : w2 = snd (bis_prepare_terminal w1)) by now rewrite Hp2.
  assert (G2 : OS.fault_at 0 (kernel w1) = false).
  { rewrite E1, prepare_uses_two_outcomes by exact Q1. exact Q2. }
  assert (G3 : OS.fault_at 0 (kernel w2) = false).
  { rewrite E2, prepare_uses_two_outcomes by exact G2.
    rewrite E1, prepare_uses_two_outcomes by exact Q1. exact A3. }
  clear E1 E2.
  assert (Snap : bis_term_info w2 = tty w1 /\ bis_term_info_set w2 = 1).
  { prepare_paths w1; try discriminate G2; pair_eq Hp2; now split. }
  destruct Snap as [Snap Flag].
  rewrite (restore_succeeds w2 Flag G3) in Hr. pair_eq Hr.
  assert (Back : tty {| bis_term_info_set := 1;
                        bis_term_info := bis_term_info w2;
                        bis_error_info := bis_error_info w2;
                        kernel :=
                          OS.with_term_attrs (bis_term_info w2)
                            (OS.account
                               (OS.Tcsetattr STDOUT_FILENO OS.TCSAFLUSH
                                  (bis_term_info w2) 0)
                               (kernel w2)) |} = tty w1)
    by exact Snap.
  split; [reflexivity |]. split; [exact Snap |]. split; [exact Back |].
  intros A1 Canon.
  rewrite (prepare_succeeds w Q1 A1) in Hp1. pair_eq Hp1.
  split; [reflexivity |].
  intros Same. apply Canon. rewrite <- Same, Back.
  apply clear_icanon_clears.
Qed.

(** C7, as amended: the record [bis_restore_terminal] leaves when the flag
    is not set holds the message "bis_restore_terminal called before
    bis_prepare_terminal" and [is_errno] 0. *)
Theorem restore_before_prepare_error_record (w w' : world) (r : Z) :
  bis_term_info_set w <> 1 ->
  bis_restore_terminal w = (r, w') ->
  bis_error_info w' =
    {| error_str :=
         Some "bis_restore_terminal called before bis_prepare_terminal"%string;
       is_errno := 0 |}.
Proof.
  intros U Hr. rewrite (restore_unprepared w U) in Hr. pair_eq Hr.
  reflexivity.
Qed.

(** C8: the flag is 0 at program start, is 1 after a call of
    [bis_prepare_terminal] that returns 0, and once it is 1 it is 1 after
    every sequence of calls of the two functions, whatever they return. *)
Theorem prepared_flag_never_reset :
  (forall k : OS.state, bis_term_info_set (initial_world k) = 0) /\
  (forall (w w' : world) (r : Z),
     bis_prepare_terminal w = (r, w') -> r = 0 ->
     bis_term_info_set w' = 1) /\
  (forall (ops : list op) (w : world),
     bis_term_info_set w = 1 -> bis_term_info_set (run ops w) = 1).
Proof.
  split; [reflexivity |]. split.
  - intros w w' r Hp R.
    prepare_paths w; pair_eq Hp; try discriminate R. reflexivity.
  - induction ops as [| o ops IH]; intros w P; cbn [run].
    + exact P.
    + apply IH. now apply call_keeps_flag.
Qed.

(** C9: a call of either function that returns 0 leaves both members of the
    error record as they were; a call that does not return 0 returns -1 and
    leaves in the record the message and the [is_errno] value of the path
    that failed. *)
Theorem error_record_written_on_failure_only (w w' : world) (r : Z) :
  (bis_prepare_terminal w = (r, w') ->
   (r = 0 -> bis_error_info w' = bis_error_info w) /\
   (r <> 0 ->
    r = -1 /\
    (bis_error_info w' =
       {| error_str := Some "Error getting terminal attributes"%string;
          is_errno := 1 |} \/
     bis_error_info w' =
       {| error_str := Some "Error setting terminal attributes"%string;
          is_errno := 1 |}))) /\
  (bis_restore_terminal w = (r, w') ->
   (r = 0 -> bis_error_info w' = bis_error_info w) /\
   (r <> 0 ->
    r = -1 /\
    (bis_error_info w' =
       {| error_str :=
            Some "bis_restore_terminal called before bis_prepare_terminal"%string;
          is_errno := 0 |} \/
     bis_error_info w' =
       {| error_str := Some "Error restoring terminal attributes"%string;
          is_errno := 1 |}))).
Proof.
  split; intros H.
  - prepare_paths w; pair_eq H; (split; [intros R | intros R; split]);
      try discriminate R; try (now contradiction R); auto.
  - restore_paths w; pair_eq H; (split; [intros R | intros R; split]);
      try discriminate R; try (now contradiction R); auto.
Qed.

(** C10: when the query fails, [bis_prepare_terminal] leaves the stored
    snapshot as it was. *)
Theorem prepare_query_failure_keeps_snapshot (w w' : world) (r : Z) :
  OS.fault_at 0 (kernel w) = true ->
  bis_prepare_terminal w = (r, w') ->
  bis_term_info w' = bis_term_info w.
Proof.
  intros F Hp. rewrite (prepare_query_fails w F) in Hp. pair_eq Hp.
  reflexivity.
Qed.

(** * Further properties of the two functions *)

Lemma clear_icanon_idempotent (t : termios) :
  clear_icanon (clear_icanon t) = clear_icanon t.
Proof.
  unfold clear_icanon, with_c_lflag; cbn.
  now rewrite <- Z.land_assoc, Z.land_diag.
Qed.

Lemma clear_icanon_noncanonical (t : termios) :
  0 <= c_lflag t < 2 ^ tcflag_bits ->
  Z.land (c_lflag t) ICANON = 0 ->
  clear_icanon t = t.
Proof.
  intros R Off.
  assert (E : c_lflag (clear_icanon t) = c_lflag t).
  { apply Z.bits_inj'; intros i Hi.
    destruct (Z.testbit ICANON i) eqn:B.
    - assert (Z.testbit (c_lflag t) i = false) as ->.
      { pose proof (Z.land_spec (c_lflag t) ICANON i) as L.
        rewrite Off, Z.bits_0, B, andb_true_r in L. now symmetry. }
      pose proof (clear_icanon_clears t) as C.
      pose proof (Z.land_spec (c_lflag (clear_icanon t)) ICANON i) as L.
      rewrite C, Z.bits_0, B, andb_true_r in L. now symmetry.
    - now apply clear_icanon_other_bits. }
  destruct t; unfold clear_icanon, with_c_lflag in *; cbn in *. now rewrite E.
Qed.

Lemma quiet_fault_at (n : nat) (k : OS.state) :
  quiet k = true -> OS.fault_at n k = false.
Proof.
  unfold quiet, OS.fault_at. generalize (OS.faults k) as fs.
  induction n as [| n IH]; intros [| b fs] Q; cbn in *; try reflexivity.
  - apply andb_prop in Q as [Q _]. now destruct b.
  - apply andb_prop in Q as [_ Q]. now apply IH.
Qed.

Lemma quiet_account (c : OS.call) (k : OS.state) :
  quiet k = true -> quiet (OS.account c k) = true.
Proof.
  unfold quiet, OS.account; cbn. destruct (OS.faults k) as [| b fs]; cbn.
  - reflexivity.
  - intros Q. now apply andb_prop in Q.
Qed.

Lemma quiet_with_term_attrs (t : termios) (k : OS.state) :
  quiet (OS.with_term_attrs t k) = quiet k.
Proof. reflexivity. Qed.

(** X1: [bis_prepare_terminal] returns 0 or -1, and 0 exactly when neither
    of its two kernel calls fails. *)
Theorem prepare_returns_zero_iff (w w' : world) (r : Z) :
  bis_prepare_terminal w = (r, w') ->
  (r = 0 \/ r = -1) /\
  (r = 0 <->
   OS.fault_at 0 (kernel w) = false /\ OS.fault_at 1 (kernel w) = false).
Proof.
  intros Hp. prepare_paths w; pair_eq Hp; split; auto;
    split; intros H; try discriminate H; try (destruct H; discriminate);
    auto.
Qed.

(** X2: [bis_restore_terminal] returns 0 or -1, and 0 exactly when the flag
    is 1 and its kernel call does not fail. *)
Theorem restore_returns_zero_iff (w w' : world) (r : Z) :
  bis_restore_terminal w = (r, w') ->
  (r = 0 \/ r = -1) /\
  (r = 0 <->
   bis_term_info_set w = 1 /\ OS.fault_at 0 (kernel w) = false).
Proof.
  intros Hr. restore_paths w; pair_eq Hr; split; auto;
    split; intros H; try discriminate H;
    try (destruct H; try discriminate; contradiction); auto.
Qed.

(** X3: when the apply of [bis_prepare_terminal] fails, the error record is
    "Error setting terminal attributes" with [is_errno] 1, and the kernel
    has seen one query and one attempt to apply, no more. *)
Theorem prepare_apply_failure_record (w w' : world) (r : Z) :
  OS.fault_at 0 (kernel w) = false ->
  OS.fault_at 1 (kernel w) = true ->
  bis_prepare_terminal w = (r, w') ->
  r = -1 /\
  bis_error_info w' =
    {| error_str := Some "Error setting terminal attributes"%string;
       is_errno := 1 |} /\
  OS.calls (kernel w') =
    OS.calls (kernel w)
      ++ [OS.Tcgetattr STDOUT_FILENO 0;
          OS.Tcsetattr STDOUT_FILENO OS.TCSAFLUSH (clear_icanon (tty w))
            (-1)].
Proof.
  intros F0 F1 Hp. rewrite (prepare_apply_fails w F0 F1) in Hp. pair_eq Hp.
  repeat split. cbn. now rewrite <- app_assoc.
Qed.

(** X4: when the flag is set and the apply of [bis_restore_terminal] fails,
    the call returns -1, the error record is "Error restoring terminal
    attributes" with [is_errno] 1, flag and snapshot are kept, and the kernel
    has seen one attempt to apply the snapshot. *)
Theorem restore_apply_failure_record (w w' : world) (r : Z) :
  bis_term_info_set w = 1 ->
  OS.fault_at 0 (kernel w) = true ->
  bis_restore_terminal w = (r, w') ->
  r = -1 /\
  bis_error_info w' =
    {| error_str := Some "Error restoring terminal attributes"%string;
       is_errno := 1 |} /\
  bis_term_info_set w' = 1 /\
  bis_term_info w' = bis_term_info w /\
  OS.calls (kernel w') =
    OS.calls (kernel w)
      ++ [OS.Tcsetattr STDOUT_FILENO OS.TCSAFLUSH (bis_term_info w) (-1)].
Proof.
  intros P F Hr. rewrite (restore_apply_fails w P F) in Hr. pair_eq Hr.
  repeat split.
Qed.

(** X5: a [bis_restore_terminal] whose apply failed can be tried again: when
    the next apply succeeds, the second call returns 0 and the terminal has
    the snapshot's attributes. *)
Theorem restore_can_be_retried (w w1 w2 : world) (r1 r2 : Z) :
  bis_term_info_set w = 1 ->
  OS.fault_at 0 (kernel w) = true ->
  OS.fault_at 1 (kernel w) = false ->
  bis_restore_terminal w = (r1, w1) ->
  bis_restore_terminal w1 = (r2, w2) ->
  r1 = -1 /\ r2 = 0 /\ tty w2 = bis_term_info w.
Proof.
  intros P F0 F1 H1 H2.
  rewrite (restore_apply_fails w P F0) in H1. pair_eq H1.
  rewrite restore_succeeds in H2;
    [| reflexivity | cbn [kernel]; now rewrite fault_at_account ].
  pair_eq H2. repeat split.
Qed.


(** X7: two calls of [bis_prepare_terminal] that both return 0 leave the
    terminal as the first one did, and the snapshot then equals the
    terminal's present attributes. *)
Theorem prepare_twice_same_terminal (w w1 w2 : world) (r1 r2 : Z) :
  bis_prepare_terminal w = (r1, w1) ->
  bis_prepare_terminal w1 = (r2, w2) ->
  r1 = 0 -> r2 = 0 ->
  tty w2 = tty w1 /\ bis_term_info w2 = tty w2.
Proof.
  intros H1 H2 R1 R2.
  assert (T1 : tty w1 = clear_icanon (tty w)).
  { prepare_paths w; pair_eq H1; try discriminate R1. reflexivity. }
  assert (T2 : tty w2 = clear_icanon (tty w1) /\ bis_term_info w2 = tty w1).
  { prepare_paths w1; pair_eq H2; try discriminate R2. now split. }
  destruct T2 as [T2 S2].
  assert (E : tty w2 = tty w1)
    by (rewrite T2, T1; apply clear_icanon_idempotent).
  split; [exact E | now rewrite S2, E].
Qed.

(** X8: on a terminal that is not in canonical mode, a call of
    [bis_prepare_terminal] that returns 0 changes no attribute. *)
Theorem prepare_on_noncanonical_terminal (w w' : world) (r : Z) :
  0 <= c_lflag (tty w) < 2 ^ tcflag_bits ->
  Z.land (c_lflag (tty w)) ICANON = 0 ->
  bis_prepare_terminal w = (r, w') ->
  r = 0 ->
  tty w' = tty w.
Proof.
  intros Rng Off Hp R.
  prepare_paths w; pair_eq Hp; try discriminate R.
  unfold tty in *; cbn [kernel OS.term_attrs OS.with_term_attrs].
  now apply clear_icanon_noncanonical.
Qed.

(** X9: a call of either function that does not return 0 leaves the
    attributes of the terminal as they were. *)
Theorem failed_call_keeps_terminal (o : op) (w w' : world) (r : Z) :
  call o w = (r, w') ->
  r <> 0 ->
  tty w' = tty w.
Proof.
  intros H R. destruct o; cbn [call] in H.
  - prepare_paths w; pair_eq H; try (now contradiction R); reflexivity.
  - restore_paths w; pair_eq H; try (now contradiction R); reflexivity.
Qed.

(** What one call adds to the kernel's log. *)
Lemma call_log (o : op) (w : world) :
  exists l : list OS.call,
    OS.calls (kernel (snd (call o w))) = OS.calls (kernel w) ++ l /\
    forallb on_stdout_flushing l = true /\
    (length l <= 2)%nat.
Proof.
  destruct o; cbn [call].
  - prepare_paths w; cbn [snd kernel OS.calls OS.account OS.with_term_attrs
      queried].
    + eexists; split; [reflexivity | split; [reflexivity | cbn; lia]].
    + eexists; split; [now rewrite <- app_assoc |
                       split; [reflexivity | cbn; lia]].
    + eexists; split; [now rewrite <- app_assoc |
                       split; [reflexivity | cbn; lia]].
  - restore_paths w; cbn [snd kernel OS.calls OS.account OS.with_term_attrs].
    + eexists; split; [reflexivity | split; [reflexivity | cbn; lia]].
    + eexists; split; [reflexivity | split; [reflexivity | cbn; lia]].
    + exists []; split; [now rewrite app_nil_r |
                         split; [reflexivity | cbn; lia]].
Qed.

Lemma call_consistent (o : op) (w : world) :
  consistent w -> consistent (snd (call o w)).
Proof.
  intros (Flag & Zero & Err). unfold consistent in *.
  destruct o; cbn [call].
  - prepare_paths w; cbn [snd bis_term_info_set bis_term_info bis_error_info];
      repeat split; auto; try (intros; discriminate); cbn; auto 10.
  - restore_paths w; cbn [snd bis_term_info_set bis_term_info bis_error_info];
      repeat split; auto; try (intros; discriminate); cbn; auto 10.
Qed.

(** X10: whatever the sequence of calls, the program talks to the kernel
    about the standard output only, sets attributes with [TCSAFLUSH] only,
    and makes at most two kernel calls per call of its own. *)
Theorem run_kernel_calls (ops : list op) (w : world) :
  exists l : list OS.call,
    OS.calls (kernel (run ops w)) = OS.calls (kernel w) ++ l /\
    forallb on_stdout_flushing l = true /\
    (length l <= 2 * length ops)%nat.
Proof.
  revert w. induction ops as [| o ops IH]; intros w; cbn [run].
  - exists []. split; [now rewrite app_nil_r | split; [reflexivity | cbn; lia]].
  - destruct (call_log o w) as (l1 & E1 & A1 & L1).
    destruct (IH (snd (call o w))) as (l2 & E2 & A2 & L2).
    exists (l1 ++ l2). split; [| split].
    + now rewrite E2, E1, app_assoc.
    + rewrite forallb_app, A1, A2. reflexivity.
    + rewrite length_app. cbn [length]. lia.
Qed.

(** X11: in every state reached from program start the flag is 0 or 1, the
    snapshot is still zero-filled while the flag is 0, and the error record
    is the initial one or one of the four the source assigns. *)
Theorem reachable_consistent (k : OS.state) (ops : list op) :
  consistent (run ops (initial_world k)).
Proof.
  assert (I : consistent (initial_world k)).
  { unfold consistent; cbn. repeat split; auto. }
  revert I. generalize (initial_world k) as w.
  induction ops as [| o ops IH]; intros w I; cbn [run].
  - exact I.
  - apply IH. now apply call_consistent.
Qed.

(** X12: when no kernel call fails, any number of prepare-then-restore pairs
    in a row return 0 throughout and leave the terminal with the attributes
    it had at the start. *)
Theorem quiet_round_trips (n : nat) (w : world) :
  quiet (kernel w) = true ->
  results (round_trips n) w = repeat 0 (2 * n) /\
  tty (run (round_trips n) w) = tty w.
Proof.
  revert w. induction n as [| n IH]; intros w Q.
  - split; reflexivity.
  - replace (2 * S n)%nat with (S (S (2 * n))) by lia.
    cbn [round_trips results run call repeat].
    rewrite (prepare_succeeds w (quiet_fault_at 0 _ Q) (quiet_fault_at 1 _ Q)).
    cbn [fst snd].
    set (w1 := {| bis_term_info_set := 1;
                  bis_term_info := tty w;
                  bis_error_info := bis_error_info w;
                  kernel := _ |}).
    assert (Q1 : quiet (kernel w1) = true).
    { cbn [w1 kernel]. unfold queried.
      rewrite quiet_with_term_attrs. now apply quiet_account, quiet_account. }
    rewrite (restore_succeeds w1 eq_refl (quiet_fault_at 0 _ Q1)).
    cbn [fst snd].
    set (w2 := {| bis_term_info_set := 1;
                  bis_term_info := bis_term_info w1;
                  bis_error_info := bis_error_info w1;
                  kernel := _ |}).
    assert (Q2 : quiet (kernel w2) = true).
    { cbn [w2 kernel].
      rewrite quiet_with_term_attrs. now apply quiet_account. }
    destruct (IH w2 Q2) as [Rs Tt].
    split; [now rewrite Rs | rewrite Tt; reflexivity].
Qed.

(** X13: a [bis_prepare_terminal] whose query fails does not make
    [bis_restore_terminal] legal: on a process whose flag is not set, the
    restore that follows returns -1 with the "called before" record, the
    kernel has seen the failed query and nothing else, and the terminal is
    as it was. *)
Theorem failed_query_does_not_enable_restore
    (w w1 w2 : world) (r1 r2 : Z) :
  bis_term_info_set w <> 1 ->
  OS.fault_at 0 (kernel w) = true ->
  bis_prepare_terminal w = (r1, w1) ->
  bis_restore_terminal w1 = (r2, w2) ->
  r1 = -1 /\ r2 = -1 /\
  bis_error_info w2 =
    {| error_str :=
         Some "bis_restore_terminal called before bis_prepare_terminal"%string;
       is_errno := 0 |} /\
  OS.calls (kernel w2) =
    OS.calls (kernel w) ++ [OS.Tcgetattr STDOUT_FILENO (-1)] /\
  tty w2 = tty w.
Proof.
  intros U F Hp Hr.
  rewrite (prepare_query_fails w F) in Hp. pair_eq Hp.
  rewrite restore_unprepared in Hr by exact U. pair_eq Hr.
  repeat split.
Qed.

(** X14: a [bis_prepare_terminal] that returns 0 has saved the attributes
    the terminal had before the call, not the ones it installed, has set the
    flag, and has made exactly one successful query and one successful
    apply. *)
Theorem successful_prepare_saves_original (w w' : world) (r : Z) :
  bis_prepare_terminal w = (r, w') ->
  r = 0 ->
  bis_term_info w' = tty w /\
  bis_term_info_set w' = 1 /\
  OS.calls (kernel w') =
    OS.calls (kernel w)
      ++ [OS.Tcgetattr STDOUT_FILENO 0;
          OS.Tcsetattr STDOUT_FILENO OS.TCSAFLUSH (clear_icanon (tty w)) 0].
Proof.
  intros Hp R. prepare_paths w; pair_eq Hp; try discriminate R.
  repeat split. cbn. now rewrite <- app_assoc.
Qed.

End Program.

(** * Concrete runs on Linux *)

(** C1 on a fresh process whose calls all succeed. *)
Lemma prepare_restore_round_trip_witness :
  fst (bis_prepare_terminal linux_ICANON linux_tcflag_bits (fresh [])) = 0 /\
  fst (bis_restore_terminal
         (snd (bis_prepare_terminal linux_ICANON linux_tcflag_bits
                 (fresh [])))) = 0 /\
  tty (snd (bis_restore_terminal
              (snd (bis_prepare_terminal linux_ICANON linux_tcflag_bits
                      (fresh []))))) = tty (fresh []).
Proof.
  split; [reflexivity |]. split; [reflexivity |].
  eapply (prepare_restore_round_trip linux_ICANON linux_tcflag_bits
            (fresh []));
    [ apply surjective_pairing | apply surjective_pairing
    | reflexivity | reflexivity ].
Defined.

(** C2 on the same run: bit 1 of [c_lflag] goes from set to clear. *)
Lemma prepare_clears_only_icanon_witness :
  Z.land (c_lflag (tty (fresh []))) linux_ICANON = 2 /\
  Z.land
    (c_lflag
       (tty (snd (bis_prepare_terminal linux_ICANON linux_tcflag_bits
                    (fresh [])))))
    linux_ICANON = 0 /\
  c_cc (tty (snd (bis_prepare_terminal linux_ICANON linux_tcflag_bits
                    (fresh [])))) = c_cc (tty (fresh [])).
Proof.
  split; [reflexivity |].
  assert (R : 0 <= c_lflag (tty (fresh [])) < 2 ^ linux_tcflag_bits)
    by (cbn; lia).
  pose proof (prepare_clears_only_icanon linux_ICANON linux_tcflag_bits
                (fresh []) _ _ (surjective_pairing _) eq_refl R) as H.
  split; [apply H | apply H].
Defined.

(** C3 on a fresh process. *)
Lemma restore_before_prepare_fails_witness :
  bis_term_info_set (fresh []) <> 1 /\
  fst (bis_restore_terminal (fresh [])) = -1 /\
  OS.calls (kernel (snd (bis_restore_terminal (fresh [])))) = [] /\
  tty (snd (bis_restore_terminal (fresh []))) = tty_cooked.
Proof.
  assert (U : bis_term_info_set (fresh []) <> 1) by (cbn; lia).
  pose proof (restore_before_prepare_fails (fresh []) _ _ U
                (surjective_pairing _)) as H.
  split; [exact U |]. split; [apply H |]. split.
  - exact (proj1 (proj2 (proj2 (proj2 H)))).
  - exact (proj1 (proj2 (proj2 (proj2 (proj2 H))))).
Defined.

(** C4 with the schedule "query succeeds, apply fails, apply succeeds". *)
Lemma restore_after_failed_apply_witness :
  fst (bis_prepare_terminal linux_ICANON linux_tcflag_bits
         (fresh [false; true; false])) = -1 /\
  fst (bis_restore_terminal
         (snd (bis_prepare_terminal linux_ICANON linux_tcflag_bits
                 (fresh [false; true; false])))) = 0 /\
  tty (snd (bis_restore_terminal
              (snd (bis_prepare_terminal linux_ICANON linux_tcflag_bits
                      (fresh [false; true; false]))))) = tty_cooked.
Proof.
  pose proof (restore_after_failed_apply linux_ICANON linux_tcflag_bits
                (fresh [false; true; false]) _ _ _ _
                eq_refl eq_refl eq_refl
                (surjective_pairing _) (surjective_pairing _)) as H.
  split; [apply H |]. split.
  - exact (proj1 (proj2 (proj2 (proj2 H)))).
  - exact (proj2 (proj2 (proj2 (proj2 (proj2 H))))).
Defined.

(** C5 with a failing query, on a process that holds an earlier error. *)
Lemma prepare_query_failure_witness :
  fst (bis_prepare_terminal linux_ICANON linux_tcflag_bits
         (snd (bis_restore_terminal (fresh [true])))) = -1 /\
  bis_error_info
    (snd (bis_prepare_terminal linux_ICANON linux_tcflag_bits
            (snd (bis_restore_terminal (fresh [true]))))) =
    {| error_str := Some "Error getting terminal attributes"%string;
       is_errno := 1 |} /\
  bis_term_info_set
    (snd (bis_prepare_terminal linux_ICANON linux_tcflag_bits
            (snd (bis_restore_terminal (fresh [true]))))) = 0.
Proof.
  pose proof (prepare_query_failure linux_ICANON linux_tcflag_bits
                (snd (bis_restore_terminal (fresh [true]))) _ _
                eq_refl (surjective_pairing _)) as H.
  split; [apply H |]. split; [apply H |].
  exact (proj2 (proj2 H)).
Defined.

(** C6: the first call's apply fails, so the terminal is still as it was
    when the second call takes its snapshot; the restore then hands back the
    very attributes the terminal had before the first call. *)
Lemma second_prepare_overwrites_snapshot_counterexample :
  OS.fault_at 0 (kernel (fresh [false; true])) = false /\
  OS.fault_at 0 (kernel (snd (bis_prepare_terminal linux_ICANON linux_tcflag_bits (fresh [false; true])))) = false /\
  fst (bis_restore_terminal
         (snd (bis_prepare_terminal linux_ICANON linux_tcflag_bits (snd (bis_prepare_terminal linux_ICANON linux_tcflag_bits (fresh [false; true])))))) = 0 /\
  bis_term_info (snd (bis_prepare_terminal linux_ICANON linux_tcflag_bits (snd (bis_prepare_terminal linux_ICANON linux_tcflag_bits (fresh [false; true]))))) =
    tty (snd (bis_prepare_terminal linux_ICANON linux_tcflag_bits (fresh [false; true]))) /\
  tty (snd (bis_restore_terminal
              (snd (bis_prepare_terminal linux_ICANON linux_tcflag_bits (snd (bis_prepare_terminal linux_ICANON linux_tcflag_bits (fresh [false; true]))))))) =
    tty (fresh [false; true]).
Proof. repeat split. Defined.

(** C6 as amended, on a fresh process whose calls all succeed: the terminal
    ends in non-canonical mode. *)
Lemma second_prepare_overwrites_snapshot_witness :
  fst (bis_restore_terminal (snd (bis_prepare_terminal linux_ICANON linux_tcflag_bits (snd (bis_prepare_terminal linux_ICANON linux_tcflag_bits (fresh [])))))) = 0 /\
  tty (snd (bis_restore_terminal (snd (bis_prepare_terminal linux_ICANON linux_tcflag_bits (snd (bis_prepare_terminal linux_ICANON linux_tcflag_bits (fresh [])))))))
    = tty (snd (bis_prepare_terminal linux_ICANON linux_tcflag_bits (fresh []))) /\
  Z.land (c_lflag (tty (fresh []))) linux_ICANON <> 0 /\
  tty (snd (bis_restore_terminal (snd (bis_prepare_terminal linux_ICANON linux_tcflag_bits (snd (bis_prepare_terminal linux_ICANON linux_tcflag_bits (fresh [])))))))
    <> tty (fresh []).
Proof.
  pose proof (second_prepare_overwrites_snapshot
                linux_ICANON linux_tcflag_bits (fresh []) _ _ _ _ _ _
                eq_refl eq_refl eq_refl
                (surjective_pairing _) (surjective_pairing _)
                (surjective_pairing _)) as (R3 & _ & Back & Differ).
  assert (Canon : Z.land (c_lflag (tty (fresh []))) linux_ICANON <> 0)
    by (cbn; lia).
  split; [exact R3 |]. split; [exact Back |]. split; [exact Canon |].
  exact (proj2 (Differ eq_refl Canon)).
Defined.

(** C7: on a fresh process the message [bis_restore_terminal] leaves is not
    "restore called before prepare". *)
Lemma restore_before_prepare_message_counterexample :
  bis_term_info_set (fresh []) <> 1 /\
  error_str (bis_error_info (snd (bis_restore_terminal (fresh [])))) <>
    Some "restore called before prepare"%string.
Proof. split; [cbn; lia | cbn; discriminate]. Defined.

(** C7 as amended, on a fresh process. *)
Lemma restore_before_prepare_error_record_witness :
  bis_term_info_set (fresh []) <> 1 /\
  bis_error_info (snd (bis_restore_terminal (fresh []))) =
    {| error_str :=
         Some "bis_restore_terminal called before bis_prepare_terminal"%string;
       is_errno := 0 |}.
Proof.
  assert (U : bis_term_info_set (fresh []) <> 1) by (cbn; lia).
  split; [exact U |].
  exact (restore_before_prepare_error_record (fresh []) _ _ U
           (surjective_pairing _)).
Defined.

(** C8: the flag after a successful call, then after a restore, a call whose
    query fails, a call whose apply fails and a failing restore. *)
Lemma prepared_flag_never_reset_witness :
  bis_term_info_set (initial_world (OS.boot tty_cooked [])) = 0 /\
  bis_term_info_set
    (run linux_ICANON linux_tcflag_bits
       [CallRestore; CallPrepare; CallPrepare; CallRestore]
       (snd (bis_prepare_terminal linux_ICANON linux_tcflag_bits
               (fresh [false; false; false; true; false; true; true]))))
    = 1.
Proof.
  destruct (prepared_flag_never_reset linux_ICANON linux_tcflag_bits)
    as (Init & Set1 & Keep).
  split; [apply Init |].
  apply Keep.
  apply (Set1 (fresh [false; false; false; true; false; true; true]) _ 0).
  - reflexivity.
  - reflexivity.
Defined.

(** C9: a successful restore after a failed prepare keeps the stale error of
    the failed call. *)
Lemma error_record_written_on_failure_only_witness :
  fst (bis_restore_terminal
         (snd (bis_prepare_terminal linux_ICANON linux_tcflag_bits
                 (fresh [false; true])))) = 0 /\
  bis_error_info
    (snd (bis_restore_terminal
            (snd (bis_prepare_terminal linux_ICANON linux_tcflag_bits
                    (fresh [false; true]))))) =
    {| error_str := Some "Error setting terminal attributes"%string;
       is_errno := 1 |}.
Proof.
  split; [reflexivity |].
  destruct (error_record_written_on_failure_only
              linux_ICANON linux_tcflag_bits
              (snd (bis_prepare_terminal linux_ICANON linux_tcflag_bits
                      (fresh [false; true])))
              (snd (bis_restore_terminal
                      (snd (bis_prepare_terminal linux_ICANON
                              linux_tcflag_bits (fresh [false; true])))))
              0) as [_ H].
  rewrite (proj1 (H eq_refl) eq_refl). reflexivity.
Defined.

(** C10: a second call whose query fails keeps the snapshot of the first. *)
Lemma prepare_query_failure_keeps_snapshot_witness :
  bis_term_info
    (snd (bis_prepare_terminal linux_ICANON linux_tcflag_bits
            (snd (bis_prepare_terminal linux_ICANON linux_tcflag_bits
                    (fresh [false; false; true]))))) = tty_cooked.
Proof.
  rewrite (prepare_query_failure_keeps_snapshot
             linux_ICANON linux_tcflag_bits
             (snd (bis_prepare_terminal linux_ICANON linux_tcflag_bits
                     (fresh [false; false; true]))) _ _
             eq_refl (surjective_pairing _)).
  reflexivity.
Defined.

(** * Concrete runs for the further properties *)

(** X1 with the schedule "query succeeds, apply fails". *)
Lemma prepare_returns_zero_iff_witness :
  (fst (bis_prepare_terminal linux_ICANON linux_tcflag_bits (fresh [false; true])) = 0 \/
   fst (bis_prepare_terminal linux_ICANON linux_tcflag_bits (fresh [false; true])) = -1) /\
  (fst (bis_prepare_terminal linux_ICANON linux_tcflag_bits (fresh [false; true])) = 0 <->
   OS.fault_at 0 (kernel (fresh [false; true])) = false /\
   OS.fault_at 1 (kernel (fresh [false; true])) = false).
Proof.
  exact (prepare_returns_zero_iff linux_ICANON linux_tcflag_bits
           (fresh [false; true]) _ _ (surjective_pairing _)).
Defined.

(** X2 on a prepared process whose restore succeeds. *)
Lemma restore_returns_zero_iff_witness :
  fst (bis_restore_terminal (snd (bis_prepare_terminal linux_ICANON linux_tcflag_bits (fresh [])))) = 0.
Proof.
  apply (proj2 (restore_returns_zero_iff (snd (bis_prepare_terminal linux_ICANON linux_tcflag_bits (fresh []))) _ _
                  (surjective_pairing _))).
  split; reflexivity.
Defined.

(** X3 with the schedule "query succeeds, apply fails". *)
Lemma prepare_apply_failure_record_witness :
  fst (bis_prepare_terminal linux_ICANON linux_tcflag_bits (fresh [false; true])) = -1 /\
  bis_error_info (snd (bis_prepare_terminal linux_ICANON linux_tcflag_bits (fresh [false; true]))) =
    {| error_str := Some "Error setting terminal attributes"%string;
       is_errno := 1 |} /\
  length (OS.calls (kernel (snd (bis_prepare_terminal linux_ICANON linux_tcflag_bits (fresh [false; true]))))) = 2%nat.
Proof.
  pose proof (prepare_apply_failure_record linux_ICANON linux_tcflag_bits
                (fresh [false; true]) _ _ eq_refl eq_refl
                (surjective_pairing _)) as H.
  split; [apply H |]. split; [apply H |].
  now rewrite (proj2 (proj2 H)).
Defined.

(** X4 on a prepared process whose restore fails. *)
Lemma restore_apply_failure_record_witness :
  fst (bis_restore_terminal (snd (bis_prepare_terminal linux_ICANON linux_tcflag_bits (fresh [false; false; true])))) = -1 /\
  bis_error_info
    (snd (bis_restore_terminal (snd (bis_prepare_terminal linux_ICANON linux_tcflag_bits (fresh [false; false; true]))))) =
    {| error_str := Some "Error restoring terminal attributes"%string;
       is_errno := 1 |} /\
  bis_term_info
    (snd (bis_restore_terminal (snd (bis_prepare_terminal linux_ICANON linux_tcflag_bits (fresh [false; false; true]))))) =
    tty_cooked.
Proof.
  pose proof (restore_apply_failure_record
                (snd (bis_prepare_terminal linux_ICANON linux_tcflag_bits (fresh [false; false; true]))) _ _
                eq_refl eq_refl (surjective_pairing _)) as H.
  split; [apply H |]. split; [apply H |].
  now rewrite (proj1 (proj2 (proj2 (proj2 H)))).
Defined.

(** X5: prepare, a restore that fails, a restore that succeeds. *)
Lemma restore_can_be_retried_witness :
  fst (bis_restore_terminal
         (snd (bis_restore_terminal
                 (snd (bis_prepare_terminal linux_ICANON linux_tcflag_bits (fresh [false; false; true; false])))))) = 0 /\
  tty (snd (bis_restore_terminal
              (snd (bis_restore_terminal
                      (snd (bis_prepare_terminal linux_ICANON linux_tcflag_bits (fresh [false; false; true; false])))))))
    = tty_cooked.
Proof.
  pose proof (restore_can_be_retried
                (snd (bis_prepare_terminal linux_ICANON linux_tcflag_bits (fresh [false; false; true; false]))) _ _ _ _
                eq_refl eq_refl eq_refl
                (surjective_pairing _) (surjective_pairing _)) as H.
  split; [apply H |].
  now rewrite (proj2 (proj2 H)).
Defined.


(** X7: two calls that succeed on a fresh process. *)
Lemma prepare_twice_same_terminal_witness :
  tty (snd (bis_prepare_terminal linux_ICANON linux_tcflag_bits (snd (bis_prepare_terminal linux_ICANON linux_tcflag_bits (fresh [])))))
    = tty (snd (bis_prepare_terminal linux_ICANON linux_tcflag_bits (fresh []))) /\
  bis_term_info (snd (bis_prepare_terminal linux_ICANON linux_tcflag_bits (snd (bis_prepare_terminal linux_ICANON linux_tcflag_bits (fresh [])))))
    = tty (snd (bis_prepare_terminal linux_ICANON linux_tcflag_bits (snd (bis_prepare_terminal linux_ICANON linux_tcflag_bits (fresh []))))).
Proof.
  exact (prepare_twice_same_terminal linux_ICANON linux_tcflag_bits
           (fresh []) _ _ _ _
           (surjective_pairing _) (surjective_pairing _) eq_refl eq_refl).
Defined.

(** X8 on a terminal whose [c_lflag] has bit 1 clear. *)
Lemma prepare_on_noncanonical_terminal_witness :
  Z.land 35385 linux_ICANON = 0 /\
  tty (snd (bis_prepare_terminal linux_ICANON linux_tcflag_bits (initial_world
                    (OS.boot (with_c_lflag 35385 tty_cooked) []))))
    = with_c_lflag 35385 tty_cooked.
Proof.
  split; [reflexivity |].
  assert (R : 0 <= 35385 < 2 ^ linux_tcflag_bits) by (cbn; lia).
  exact (prepare_on_noncanonical_terminal linux_ICANON linux_tcflag_bits
           (initial_world (OS.boot (with_c_lflag 35385 tty_cooked) []))
           _ _ R eq_refl (surjective_pairing _) eq_refl).
Defined.

(** X9 on a prepare whose apply fails. *)
Lemma failed_call_keeps_terminal_witness :
  fst (bis_prepare_terminal linux_ICANON linux_tcflag_bits (fresh [false; true])) <> 0 /\
  tty (snd (bis_prepare_terminal linux_ICANON linux_tcflag_bits (fresh [false; true]))) = tty_cooked.
Proof.
  assert (N : fst (bis_prepare_terminal linux_ICANON linux_tcflag_bits (fresh [false; true])) <> 0) by (cbn; lia).
  split; [exact N |].
  exact (failed_call_keeps_terminal linux_ICANON linux_tcflag_bits
           CallPrepare (fresh [false; true]) _ _ (surjective_pairing _) N).
Defined.

(** X12: three round trips under a schedule without failures. *)
Lemma quiet_round_trips_witness :
  results linux_ICANON linux_tcflag_bits (round_trips 3)
    (fresh [false; false]) = [0; 0; 0; 0; 0; 0] /\
  tty (run linux_ICANON linux_tcflag_bits (round_trips 3)
         (fresh [false; false])) = tty_cooked.
Proof.
  exact (quiet_round_trips linux_ICANON linux_tcflag_bits 3
           (fresh [false; false]) eq_refl).
Defined.

(** X13 on a fresh process whose query fails. *)
Lemma failed_query_does_not_enable_restore_witness :
  fst (bis_restore_terminal (snd (bis_prepare_terminal linux_ICANON linux_tcflag_bits (fresh [true])))) = -1 /\
  OS.calls (kernel (snd (bis_restore_terminal (snd (bis_prepare_terminal linux_ICANON linux_tcflag_bits (fresh [true]))))))
    = [OS.Tcgetattr STDOUT_FILENO (-1)].
Proof.
  assert (U : bis_term_info_set (fresh [true]) <> 1) by (cbn; lia).
  pose proof (failed_query_does_not_enable_restore
                linux_ICANON linux_tcflag_bits (fresh [true]) _ _ _ _
                U eq_refl (surjective_pairing _) (surjective_pairing _)) as H.
  split; [apply H |].
  now rewrite (proj1 (proj2 (proj2 (proj2 H)))).
Defined.

(** X14 on a fresh process whose calls succeed. *)
Lemma successful_prepare_saves_original_witness :
  bis_term_info (snd (bis_prepare_terminal linux_ICANON linux_tcflag_bits (fresh []))) = tty_cooked /\
  bis_term_info_set (snd (bis_prepare_terminal linux_ICANON linux_tcflag_bits (fresh []))) = 1.
Proof.
  pose proof (successful_prepare_saves_original
                linux_ICANON linux_tcflag_bits (fresh []) _ _
                (surjective_pairing _) eq_refl) as H.
  split; [now rewrite (proj1 H) | apply H].
Defined.
